(** * Weather backend: the two Flask handlers of [app.py]

    A shallow embedding of [home] and [get_weather] with the Python
    values, exceptions and library calls they rely on, followed by the
    properties of the handlers. *)

From Stdlib Require Import ZArith NArith List Bool String Ascii Lia.
From Stdlib Require Import DecimalString.
From Stdlib Require Import Floats.SpecFloat.
Import ListNotations.

Local Open Scope Z_scope.

(** ** Python [str]

    A [str] is a sequence of Unicode code points. *)

Definition pystr := list N.

Definition str (s : string) : pystr :=
  List.map N_of_ascii (list_ascii_of_string s).

Fixpoint str_eqb (a b : pystr) : bool :=
  match a, b with
  | [], [] => true
  | x :: a', y :: b' => N.eqb x y && str_eqb a' b'
  | _, _ => false
  end.

Definition is_ascii (c : N) : bool := N.ltb c 128.

Definition ascii_lower (c : N) : N :=
  if N.leb 65 c && N.leb c 90 then N.add c 32 else c.

Definition ascii_upper (c : N) : N :=
  if N.leb 97 c && N.leb c 122 then N.sub c 32 else c.

(** The case mappings and printability of the code points beyond ASCII come
    from the Unicode database of the interpreter. [ucd_lower] is given the
    whole string and the position, since the lowering of a capital sigma
    depends on its context. *)
Record unicode_db := {
  ucd_lower : pystr -> nat -> N -> pystr;
  ucd_title : N -> pystr;
  ucd_repr : N -> pystr
}.

(** The database that leaves every code point beyond ASCII alone. *)
Definition plain_ucd : unicode_db :=
  {| ucd_lower := fun _ _ c => [c];
     ucd_title := fun c => [c];
     ucd_repr := fun c => [c] |}.

Section Str.
Variable ucd : unicode_db.

Definition lower_char (whole : pystr) (i : nat) (c : N) : pystr :=
  if is_ascii c then [ascii_lower c] else ucd_lower ucd whole i c.

Fixpoint lower_from (whole : pystr) (i : nat) (s : pystr) : pystr :=
  match s with
  | [] => []
  | c :: s' => lower_char whole i c ++ lower_from whole (S i) s'
  end.

(** [s.lower()] *)
Definition lower (s : pystr) : pystr := lower_from s 0%nat s.

Definition title_char (c : N) : pystr :=
  if is_ascii c then [ascii_upper c] else ucd_title ucd c.

(** [s.capitalize()]: the first character in title case, the others in
    lower case. *)
Definition capitalize (s : pystr) : pystr :=
  match s with
  | [] => []
  | c :: s' => title_char c ++ lower_from s 1%nat s'
  end.

Definition hex_digit (n : N) : N :=
  if N.ltb n 10 then N.add 48 n else N.add 87 n.

Definition repr_char (quote : N) (c : N) : pystr :=
  if N.eqb c 92 then [92; 92]%N
  else if N.eqb c quote then [92; quote]%N
  else if N.eqb c 9 then [92; 116]%N
  else if N.eqb c 10 then [92; 110]%N
  else if N.eqb c 13 then [92; 114]%N
  else if N.ltb c 32 || N.eqb c 127
       then [92; 120; hex_digit (N.div c 16); hex_digit (N.modulo c 16)]%N
  else if is_ascii c then [c]
  else ucd_repr ucd c.

(** [repr(s)] for a [str]: double quotes only when the text holds a single
    quote and no double quote. *)
Definition repr_str (s : pystr) : pystr :=
  let quote :=
    if existsb (N.eqb 39) s && negb (existsb (N.eqb 34) s) then 34%N else 39%N in
  quote :: flat_map (repr_char quote) s ++ [quote].

Fixpoint join (sep : pystr) (l : list pystr) : pystr :=
  match l with
  | [] => []
  | [x] => x
  | x :: l' => x ++ sep ++ join sep l'
  end.

(** [str(l)] for a list of [str]. *)
Definition str_of_list (l : list pystr) : pystr :=
  str "[" ++ join (str ", ") (List.map repr_str l) ++ str "]".
End Str.

(** [str(n)] for an [int]. *)
Definition str_of_int (z : Z) : pystr := str (NilZero.string_of_int (Z.to_int z)).

(** ** Python [float]: IEEE 754 binary64 *)

Definition float := spec_float.
Definition prec : Z := 53.
Definition emax : Z := 1024.

(** The double nearest to [n / d] (ties to even), for [d > 0]. *)
Definition float_of_ratio (n : Z) (d : positive) : float :=
  match n with
  | Z0 => S754_zero false
  | Zpos p => SFdiv prec emax (S754_finite false p 0) (S754_finite false d 0)
  | Zneg p => SFdiv prec emax (S754_finite true p 0) (S754_finite false d 0)
  end.

(** The double a decimal literal [n]e-[k] denotes: [decimal 1504 2] is the
    float [15.04]. *)
Definition decimal (n : Z) (k : nat) : float :=
  float_of_ratio n (Nat.iter k (Pos.mul 10) 1%positive).

(** The integer nearest to [n / d], ties to the even one ([d > 0]). *)
Definition round_half_even (n d : Z) : Z :=
  let q := n / d in
  match (2 * (n mod d) ?= d) with
  | Lt => q
  | Gt => q + 1
  | Eq => if Z.even q then q else q + 1
  end.

(** [round(x, 1)] for a [float]: the exact value of [x] rounded to one
    decimal (half to even), then the double nearest to that decimal; zeros,
    infinities and nans are returned as they are. *)
Definition float_round1 (x : float) : float :=
  match x with
  | S754_finite s m e =>
      let tenths :=
        if 0 <=? e then 10 * Zpos m * 2 ^ e
        else round_half_even (10 * Zpos m) (2 ^ (- e)) in
      match tenths with
      | Zpos q => SFdiv prec emax (S754_finite s q 0) (S754_finite false 10 0)
      | _ => S754_zero s
      end
  | _ => x
  end.

(** ** Python values

    The values a decoded JSON document is made of, which are also the values
    the handlers put in their response bodies. A [dict] keeps its entries in
    insertion order. *)

Unset Elimination Schemes.
Inductive pyval :=
| PNone
| PBool (b : bool)
| PInt (z : Z)
| PFloat (f : float)
| PStr (s : pystr)
| PList (l : list pyval)
| PDict (d : list (pystr * pyval)).
Set Elimination Schemes.

Definition dict (V : Type) := list (pystr * V).

Fixpoint dict_get {V} (d : dict V) (k : pystr) : option V :=
  match d with
  | [] => None
  | (k', v) :: d' => if str_eqb k' k then Some v else dict_get d' k
  end.

(** [k in d] *)
Definition dict_contains {V} (d : dict V) (k : pystr) : bool :=
  match dict_get d k with Some _ => true | None => false end.

(** [list(d.keys())] *)
Definition dict_keys {V} (d : dict V) : list pystr := List.map fst d.

(** ** Exceptions

    The classes of the builtin exceptions and of [requests.exceptions] that
    can reach the [except] clauses of [get_weather], with their base
    classes. *)

Inductive exn_class :=
| Exception
| LookupError
| KeyError
| IndexError
| TypeError
| AttributeError
| ValueError
| OSError
| json_JSONDecodeError
| requests_RequestException
| requests_InvalidJSONError
| requests_JSONDecodeError
| requests_HTTPError
| requests_ConnectionError
| requests_ProxyError
| requests_SSLError
| requests_Timeout
| requests_ConnectTimeout
| requests_ReadTimeout
| requests_TooManyRedirects
| requests_InvalidURL
| requests_ChunkedEncodingError
| requests_ContentDecodingError.

Scheme Equality for exn_class.

Definition bases (c : exn_class) : list exn_class :=
  match c with
  | Exception => []
  | LookupError => [Exception]
  | KeyError => [LookupError]
  | IndexError => [LookupError]
  | TypeError => [Exception]
  | AttributeError => [Exception]
  | ValueError => [Exception]
  | OSError => [Exception]
  | json_JSONDecodeError => [ValueError]
  | requests_RequestException => [OSError]
  | requests_InvalidJSONError => [requests_RequestException]
  | requests_JSONDecodeError => [requests_InvalidJSONError; json_JSONDecodeError]
  | requests_HTTPError => [requests_RequestException]
  | requests_ConnectionError => [requests_RequestException]
  | requests_ProxyError => [requests_ConnectionError]
  | requests_SSLError => [requests_ConnectionError]
  | requests_Timeout => [requests_RequestException]
  | requests_ConnectTimeout => [requests_ConnectionError; requests_Timeout]
  | requests_ReadTimeout => [requests_Timeout]
  | requests_TooManyRedirects => [requests_RequestException]
  | requests_InvalidURL => [requests_RequestException; ValueError]
  | requests_ChunkedEncodingError => [requests_RequestException]
  | requests_ContentDecodingError => [requests_RequestException]
  end.

Fixpoint issubclass_upto (depth : nat) (c d : exn_class) : bool :=
  exn_class_beq c d ||
  match depth with
  | O => false
  | S depth' => existsb (fun b => issubclass_upto depth' b d) (bases c)
  end.

(** No class above is more than five steps below [Exception]. *)
Definition issubclass : exn_class -> exn_class -> bool := issubclass_upto 5.

(** A raised exception: its class and, for the exceptions that carry a
    response, the status code of [e.response]. *)
Record exn := {
  exn_cls : exn_class;
  exn_status : option Z
}.

Definition exn_of (c : exn_class) : exn := {| exn_cls := c; exn_status := None |}.

Definition isinstance (e : exn) (c : exn_class) : bool := issubclass (exn_cls e) c.

(** The outcome of an expression: the exception it raises or its value. *)
Definition result (A : Type) : Type := exn + A.

Definition ok {A} (a : A) : result A := inr a.
Definition throw {A} (c : exn_class) : result A := inl (exn_of c).

Definition rbind {A B} (r : result A) (k : A -> result B) : result B :=
  match r with
  | inl e => inl e
  | inr a => k a
  end.

(** ** Operations on values *)

(** [v[k]] for a [str] key [k]. *)
Definition getitem (v : pyval) (k : pystr) : result pyval :=
  match v with
  | PDict d =>
      match dict_get d k with
      | Some x => ok x
      | None => throw KeyError
      end
  | _ => throw TypeError
  end.

(** [v[0]]. The keys of a decoded JSON object are [str], so [0] is the key
    of none of its entries. *)
Definition getitem0 (v : pyval) : result pyval :=
  match v with
  | PList (x :: _) => ok x
  | PList [] => throw IndexError
  | PStr (c :: _) => ok (PStr [c])
  | PStr [] => throw IndexError
  | PDict _ => throw KeyError
  | _ => throw TypeError
  end.

(** [round(v, 1)]: an [int] (and a [bool], which is one) rounds to an [int],
    a [float] to a [float]; the other values have no [__round__]. *)
Definition round1 (v : pyval) : result pyval :=
  match v with
  | PInt z => ok (PInt z)
  | PBool b => ok (PInt (if b then 1 else 0))
  | PFloat f => ok (PFloat (float_round1 f))
  | _ => throw TypeError
  end.

(** [v.capitalize()]: only a [str] has the method. *)
Definition capitalize_method (ucd : unicode_db) (v : pyval) : result pyval :=
  match v with
  | PStr s => ok (PStr (capitalize ucd s))
  | _ => throw AttributeError
  end.

(** [not v] for the value of [API_KEY], which is [None] or a [str]. *)
Definition falsy (v : option pystr) : bool :=
  match v with
  | None => true
  | Some [] => true
  | Some (_ :: _) => false
  end.

(** ** The outbound call *)

Record request := {
  req_url : pystr;
  req_params : dict pyval;
  req_timeout : Z
}.

(** What [requests.get] hands back: the status code, and what
    [response.json()] gives. *)
Record http_response := {
  status_code : Z;
  json : result pyval
}.

(** The weather provider as seen through [requests.get]: for each request,
    the exception raised or the response returned. *)
Definition provider := request -> result http_response.

(** [response.raise_for_status()]: [HTTPError] for the 4xx and 5xx codes. *)
Definition raise_for_status (r : http_response) : result unit :=
  if (400 <=? status_code r) && (status_code r <? 600)
  then inl {| exn_cls := requests_HTTPError; exn_status := Some (status_code r) |}
  else ok tt.



(** ** Process state and the handler monad

    The module globals set when [app.py] is loaded, and the outbound calls
    made so far, oldest first. *)

Record world := {
  API_KEY : option pystr;
  BASE_URL : pystr;
  CITIES : dict pystr;
  outbound : list request
}.

(** Loading the module: [getenv] is the value of [OPENWEATHER_API_KEY] in
    the environment, if any. *)
Definition startup (getenv : option pystr) : world :=
  {| API_KEY := getenv;
     BASE_URL := str "http://api.openweathermap.org/data/2.5/weather";
     CITIES := [ (str "newyork", str "New York");
                 (str "sydney", str "Sydney");
                 (str "capetown", str "Cape Town");
                 (str "bangkok", str "Bangkok") ];
     outbound := [] |}.

(** A computation reads and updates the process state and ends with a value
    or an exception. *)
Definition M (A : Type) : Type := world -> result A * world.

Definition ret {A} (a : A) : M A := fun w => (inr a, w).

Definition raise {A} (e : exn) : M A := fun w => (inl e, w).

Definition bind {A B} (m : M A) (k : A -> M B) : M B :=
  fun w =>
    match m w with
    | (inl e, w') => (inl e, w')
    | (inr a, w') => k a w'
    end.

Definition lift {A} (r : result A) : M A := fun w => (r, w).

(** [try: body / except ...: handler] *)
Definition try_except {A} (body : M A) (handler : exn -> M A) : M A :=
  fun w =>
    match body w with
    | (inl e, w') => handler e w'
    | (inr a, w') => (inr a, w')
    end.

(** Reading a module global. *)
Definition global {A} (field : world -> A) : M A := fun w => (inr (field w), w).

Definition record_call (w : world) (rq : request) : world :=
  {| API_KEY := API_KEY w;
     BASE_URL := BASE_URL w;
     CITIES := CITIES w;
     outbound := outbound w ++ [rq] |}.

(** [requests.get(url, params=params, timeout=timeout)] against the provider
    [p]: the call is recorded and [p] decides its outcome. *)
Definition requests_get (p : provider) (url : pystr) (params : dict pyval)
    (timeout : Z) : M http_response :=
  fun w =>
    let rq := {| req_url := url; req_params := params; req_timeout := timeout |} in
    (p rq, record_call w rq).

Declare Scope py_scope.
Delimit Scope py_scope with py.
Notation "x <- m ;; k" := (bind m (fun x => k))
  (at level 61, m at next level, right associativity) : py_scope.
Notation "m ;;; k" := (bind m (fun _ => k))
  (at level 61, right associativity) : py_scope.
Notation "x <~ r ;; k" := (rbind r (fun x => k))
  (at level 61, r at next level, right associativity) : py_scope.

(** ** Responses *)

Record response := {
  body : pyval;
  status : Z
}.

(** [jsonify(obj)]: a JSON response with status 200. *)
Definition jsonify (obj : pyval) : response := {| body := obj; status := 200 |}.

(** [return resp, code] *)
Definition with_status (r : response) (code : Z) : response :=
  {| body := body r; status := code |}.

Definition error_body (error message : pystr) : pyval :=
  PDict [ (str "error", PStr error); (str "message", PStr message) ].

Definition dquote : pystr := [34%N].

Definition pyval_of_key (k : option pystr) : pyval :=
  match k with
  | None => PNone
  | Some s => PStr s
  end.

(** ** The handlers *)

Section Handlers.
Variable ucd : unicode_db.
Variable weather_api : provider.

Local Open Scope py_scope.

(** [home()], the handler of [GET /]. *)
Definition home : M response :=
  cities <- global CITIES ;;
  ret (jsonify (PDict
    [ (str "status", PStr (str "running"));
      (str "service", PStr (str "Weather Backend API"));
      (str "available_cities", PList (List.map PStr (dict_keys cities))) ])).

(** The [weather_data] literal: its values are computed in the order they
    are written, and the first exception ends the computation. *)
Definition weather_data (city_name : pystr) (data : pyval) : result pyval :=
  main <~ getitem data (str "main") ;;
  temp <~ getitem main (str "temp") ;;
  temperature <~ round1 temp ;;
  weather <~ getitem data (str "weather") ;;
  first <~ getitem0 weather ;;
  desc <~ getitem first (str "description") ;;
  description <~ capitalize_method ucd desc ;;
  main' <~ getitem data (str "main") ;;
  humidity <~ getitem main' (str "humidity") ;;
  wind <~ getitem data (str "wind") ;;
  speed <~ getitem wind (str "speed") ;;
  wind_speed <~ round1 speed ;;
  ok (PDict
    [ (str "city", PStr city_name);
      (str "temperature", temperature);
      (str "description", description);
      (str "humidity", humidity);
      (str "wind_speed", wind_speed) ]).

(** The [except] clauses of [get_weather], tried in the order they are
    written; an exception none of them matches leaves the handler. *)
Definition get_weather_except (e : exn) : M response :=
  if isinstance e requests_Timeout then
    ret (with_status (jsonify (error_body (str "Timeout")
           (str "Request to OpenWeatherMap API timed out"))) 504)
  else if isinstance e requests_HTTPError then
    match exn_status e with
    | Some code =>
        ret (with_status (jsonify (error_body (str "API Error")
               (str "OpenWeatherMap API returned an error: " ++ str_of_int code))) 502)
    | None => raise (exn_of AttributeError)
    end
  else if isinstance e requests_RequestException then
    ret (with_status (jsonify (error_body (str "Network Error")
           (str "Failed to connect to OpenWeatherMap API"))) 502)
  else if isinstance e KeyError || isinstance e ValueError then
    ret (with_status (jsonify (error_body (str "Data Error")
           (str "Unexpected response format from OpenWeatherMap API"))) 502)
  else raise e.

(** [get_weather(city)], the handler of [GET /weather/<city>]. *)
Definition get_weather (city : pystr) : M response :=
  let city_lower := lower ucd city in
  cities <- global CITIES ;;
  if negb (dict_contains cities city_lower) then
    cities' <- global CITIES ;;
    ret (with_status (jsonify (error_body (str "Invalid city")
           (str "City " ++ dquote ++ city ++ dquote
            ++ str " not supported. Available cities: "
            ++ str_of_list ucd (dict_keys cities')))) 400)
  else
    api_key <- global API_KEY ;;
    if falsy api_key then
      ret (with_status (jsonify (error_body (str "Configuration error")
             (str "OpenWeatherMap API key not configured"))) 500)
    else
      cities' <- global CITIES ;;
      city_name <- lift (match dict_get cities' city_lower with
                         | Some name => ok name
                         | None => throw KeyError
                         end) ;;
      try_except
        (api_key' <- global API_KEY ;;
         let params :=
           [ (str "q", PStr city_name);
             (str "appid", pyval_of_key api_key');
             (str "units", PStr (str "metric")) ] in
         base_url <- global BASE_URL ;;
         resp <- requests_get weather_api base_url params 10 ;;
         lift (raise_for_status resp) ;;;
         data <- lift (json resp) ;;
         result_data <- lift (weather_data city_name data) ;;
         ret (jsonify result_data))
        get_weather_except.
End Handlers.

(** ** Vocabulary of the properties *)

(** The error kinds of the taxonomy, the [error] text the handler puts in
    the body for each, and the HTTP status of each. *)
Inductive error_kind :=
| InvalidCity
| ConfigurationError
| UpstreamTimeout
| UpstreamHTTPError
| NetworkError
| DataError.

Definition error_label (k : error_kind) : pystr :=
  match k with
  | InvalidCity => str "Invalid city"
  | ConfigurationError => str "Configuration error"
  | UpstreamTimeout => str "Timeout"
  | UpstreamHTTPError => str "API Error"
  | NetworkError => str "Network Error"
  | DataError => str "Data Error"
  end.

Definition error_status (k : error_kind) : Z :=
  match k with
  | InvalidCity => 400
  | ConfigurationError => 500
  | UpstreamTimeout => 504
  | UpstreamHTTPError => 502
  | NetworkError => 502
  | DataError => 502
  end.

(** The entry [k] of a response body. *)
Definition field (r : response) (k : string) : option pyval :=
  match body r with
  | PDict d => dict_get d (str k)
  | _ => None
  end.

(** The handler answered with the structured error of kind [k]. *)
Definition fails_with (k : error_kind) (out : result response) : Prop :=
  exists r, out = inr r
            /\ field r "error" = Some (PStr (error_label k))
            /\ status r = error_status k.

(** The request [get_weather] sends for the display name [city_name]. *)
Definition weather_request (w : world) (city_name : pystr) : request :=
  {| req_url := BASE_URL w;
     req_params := [ (str "q", PStr city_name);
                     (str "appid", pyval_of_key (API_KEY w));
                     (str "units", PStr (str "metric")) ];
     req_timeout := 10 |}.

(** What the [try] block computes from the provider's answer. *)
Definition reshaped (ucd : unicode_db) (city_name : pystr)
    (answer : result http_response) : result response :=
  (resp <~ answer ;;
   _ <~ raise_for_status resp ;;
   data <~ json resp ;;
   result_data <~ weather_data ucd city_name data ;;
   ok (jsonify result_data))%py.

(** [s] is [k] with some of its letters in upper case. *)
Definition casing_variant (k s : pystr) : Prop :=
  Forall2 (fun a b => b = a \/ b = ascii_upper a) k s.

(** A provider that answers every request with status 200 and the JSON
    document [data]. *)
Definition stub (data : pyval) : provider :=
  fun _ => ok {| status_code := 200; json := ok data |}.

(** A weather report with the four fields the handler reads. *)
Definition report (temp : pyval) (humidity : pyval) (conditions : list pyval)
    (speed : pyval) : pyval :=
  PDict [ (str "main", PDict [ (str "temp", temp); (str "humidity", humidity) ]);
          (str "weather", PList conditions);
          (str "wind", PDict [ (str "speed", speed) ]) ].

Definition condition (description : string) : pyval :=
  PDict [ (str "description", PStr (str description)) ].

(** The stubbed answer of the Sydney example: temperature 15.04, humidity
    72, one condition [light rain], wind speed 3.26. *)
Definition sydney_report : pyval :=
  report (PFloat (decimal 1504 2)) (PInt 72) [condition "light rain"]
    (PFloat (decimal 326 2)).

(** The weather result of the Sydney example, with the name [wind_key] for
    the wind speed entry. *)
Definition sydney_result (wind_key : string) : pyval :=
  PDict [ (str "city", PStr (str "Sydney"));
          (str "temperature", PFloat (decimal 150 1));
          (str "description", PStr (str "Light rain"));
          (str "humidity", PInt 72);
          (str wind_key, PFloat (decimal 33 1)) ].

(** A report to which the provider adds the city name it matched. *)
Definition echoing (name : string) (data : pyval) : pyval :=
  match data with
  | PDict d => PDict (d ++ [ (str "name", PStr (str name)) ])
  | _ => data
  end.

(** The description as the specification words it: the first letter in upper
    case, the others as they are. *)
Definition capitalize_first_only (s : pystr) : pystr :=
  match s with
  | [] => []
  | c :: s' => ascii_upper c :: s'
  end.

(** ** Loading the module

    [os.environ] as a [dict] of [str], the bindings of the [.env] file that
    [load_dotenv()] found, in the order of the file and with their values
    resolved (none when there is no file; a name written without a value has
    [None]), and the two statements of [app.py] that set [API_KEY]. *)

Definition environ := dict pystr.

(** [d[k] = v]: the entry of [k] is replaced where it is, or added last. *)
Fixpoint dict_set {V} (d : dict V) (k : pystr) (v : V) : dict V :=
  match d with
  | [] => [(k, v)]
  | (k', v') :: d' =>
      if str_eqb k' k then (k', v) :: d' else (k', v') :: dict_set d' k v
  end.

(** The mapping [python-dotenv] makes of the file before it touches the
    environment: the bindings are assigned one after the other, so a name
    bound more than once keeps its last binding, with or without a value. *)
Definition dotenv_dict (bindings : list (pystr * option pystr))
    : dict (option pystr) :=
  fold_left (fun d kv => dict_set d (fst kv) (snd kv)) bindings [].

(** [load_dotenv()] with its default [override=False]: each entry of that
    mapping is copied to the environment unless the environment has the
    name already or the entry has no value. *)
Definition load_dotenv (dotenv : option (list (pystr * option pystr)))
    (env : environ) : environ :=
  match dotenv with
  | None => env
  | Some bindings =>
      fold_left
        (fun (e : environ) (kv : pystr * option pystr) =>
           if dict_contains e (fst kv) then e
           else match snd kv with
                | Some v => dict_set e (fst kv) v
                | None => e
                end)
        (dotenv_dict bindings) env
  end.

(** [os.getenv(name)] *)
Definition os_getenv (env : environ) (name : pystr) : option pystr :=
  dict_get env name.

(** The module body of [app.py]: [load_dotenv()], then the globals. *)
Definition load_module (dotenv : option (list (pystr * option pystr)))
    (env : environ) : world :=
  startup (os_getenv (load_dotenv dotenv env) (str "OPENWEATHER_API_KEY")).

(** The last binding of [name] in a [.env] file, if it has one. *)
Fixpoint last_binding (bindings : list (pystr * option pystr)) (name : pystr)
    : option (option pystr) :=
  match bindings with
  | [] => None
  | (k, v) :: bindings' =>
      match last_binding bindings' name with
      | Some b => Some b
      | None => if str_eqb k name then Some v else None
      end
  end.

(** The value a [.env] file gives [name]: the one of its last binding, when
    that binding has a value. *)
Definition dotenv_value (bindings : list (pystr * option pystr)) (name : pystr)
    : option pystr :=
  match last_binding bindings name with
  | Some (Some v) => Some v
  | _ => None
  end.

(** The decimal digits of a status code of three digits. *)
Definition three_digits (code : Z) : pystr :=
  List.map (fun d => Z.to_N (48 + d)) [code / 100; (code / 10) mod 10; code mod 10].

(** Equality of two floats as values of [spec_float]. *)
Definition float_eqb (a b : float) : bool :=
  match a, b with
  | S754_zero s, S754_zero s' => Bool.eqb s s'
  | S754_infinity s, S754_infinity s' => Bool.eqb s s'
  | S754_nan, S754_nan => true
  | S754_finite s m e, S754_finite s' m' e' =>
      Bool.eqb s s' && Pos.eqb m m' && Z.eqb e e'
  | _, _ => false
  end.

(** ** Strings *)

Lemma lower_from_ascii (ucd : unicode_db) (whole s : pystr) (i : nat) :
  Forall (fun c => is_ascii c = true) s ->
  lower_from ucd whole i s = List.map ascii_lower s.
Proof.
  intros H. revert i.
  induction H as [| c s Hc _ IH]; intros i; simpl.
  - reflexivity.
  - unfold lower_char. rewrite Hc. simpl. now rewrite IH.
Qed.

Lemma lower_ascii (ucd : unicode_db) (s : pystr) :
  Forall (fun c => is_ascii c = true) s ->
  lower ucd s = List.map ascii_lower s.
Proof. apply lower_from_ascii. Qed.

Lemma capitalize_ascii (ucd : unicode_db) (c : N) (s : pystr) :
  Forall (fun c => is_ascii c = true) (c :: s) ->
  capitalize ucd (c :: s) = ascii_upper c :: List.map ascii_lower s.
Proof.
  intros H. inversion H as [| ? ? Hc Hs]; subst.
  unfold capitalize, title_char. rewrite Hc. simpl.
  now rewrite lower_from_ascii.
Qed.

Lemma ascii_upper_is_ascii (a : N) :
  is_ascii a = true -> is_ascii (ascii_upper a) = true.
Proof.
  unfold is_ascii, ascii_upper. intros H. apply N.ltb_lt in H.
  destruct (N.leb_spec 97 a); destruct (N.leb_spec a 122); simpl;
    apply N.ltb_lt; lia.
Qed.

Lemma ascii_lower_upper (a : N) :
  ascii_lower a = a -> ascii_lower (ascii_upper a) = a.
Proof.
  unfold ascii_lower, ascii_upper.
  destruct (N.leb_spec 97 a); destruct (N.leb_spec a 122); simpl; auto.
  intros _.
  destruct (N.leb_spec 65 (a - 32)); destruct (N.leb_spec (a - 32) 90); simpl; lia.
Qed.

(** A key of lower-case ASCII text is what every casing variant of it
    lowers to. *)
Lemma casing_variant_lower (ucd : unicode_db) (k s : pystr) :
  Forall (fun a => is_ascii a = true /\ ascii_lower a = a) k ->
  casing_variant k s ->
  lower ucd s = k.
Proof.
  intros Hk Hv.
  assert (Hs : Forall (fun c => is_ascii c = true) s /\ List.map ascii_lower s = k).
  { induction Hv as [| a b k' s' Hab _ IH].
    - split; [constructor | reflexivity].
    - inversion Hk as [| ? ? [Ha Hl] Hk']; subst.
      destruct (IH Hk') as [IH1 IH2].
      destruct Hab as [-> | ->]; split; simpl.
      + constructor; assumption.
      + now rewrite Hl, IH2.
      + constructor; [now apply ascii_upper_is_ascii | assumption].
      + now rewrite ascii_lower_upper, IH2. }
  destruct Hs as [Hs1 Hs2]. now rewrite lower_ascii.
Qed.

(** ** The three paths of [get_weather] *)

Section Paths.
Variable ucd : unicode_db.
Variable p : provider.

(** An unsupported key: the 400 answer, and no outbound call. *)
Lemma get_weather_invalid (city : pystr) (w : world) :
  dict_contains (CITIES w) (lower ucd city) = false ->
  get_weather ucd p city w =
    (inr (with_status (jsonify (error_body (str "Invalid city")
            (str "City " ++ dquote ++ city ++ dquote
             ++ str " not supported. Available cities: "
             ++ str_of_list ucd (dict_keys (CITIES w))))) 400), w).
Proof.
  intros H. unfold get_weather, bind, global, ret. now rewrite H.
Qed.

(** A supported key without a credential: the 500 answer, and no outbound
    call. *)
Lemma get_weather_unconfigured (city : pystr) (w : world) :
  dict_contains (CITIES w) (lower ucd city) = true ->
  falsy (API_KEY w) = true ->
  get_weather ucd p city w =
    (inr (with_status (jsonify (error_body (str "Configuration error")
            (str "OpenWeatherMap API key not configured"))) 500), w).
Proof.
  intros H K. unfold get_weather, bind, global, ret.
  rewrite H. cbn [negb]. now rewrite K.
Qed.

Lemma get_weather_except_world (e : exn) (w : world) :
  snd (get_weather_except e w) = w.
Proof.
  unfold get_weather_except, ret, raise.
  repeat match goal with
         | |- context [if ?b then _ else _] => destruct b
         | |- context [match ?o with Some _ => _ | None => _ end] => destruct o
         end; reflexivity.
Qed.

(** A supported key with a credential: one outbound call, whose answer the
    [try] block reshapes and whose failures the [except] clauses map. *)
Lemma get_weather_lookup (city name : pystr) (w : world) :
  dict_get (CITIES w) (lower ucd city) = Some name ->
  falsy (API_KEY w) = false ->
  get_weather ucd p city w =
    let rq := weather_request w name in
    match reshaped ucd name (p rq) with
    | inr r => (inr r, record_call w rq)
    | inl e => get_weather_except e (record_call w rq)
    end.
Proof.
  intros H K.
  unfold get_weather, bind, global, ret, lift, try_except, requests_get,
    dict_contains, reshaped, rbind.
  rewrite H. cbn [negb]. rewrite K, H. unfold ok. cbv beta iota.
  fold (weather_request w name).
  destruct (p (weather_request w name)) as [e | resp]; [reflexivity |].
  destruct (raise_for_status resp) as [e | []]; [reflexivity |].
  destruct (json resp) as [e | data]; [reflexivity |].
  destruct (weather_data ucd name data) as [e | wd]; reflexivity.
Qed.

Lemma dict_contains_get {V} (d : dict V) (k : pystr) :
  dict_contains d k = true -> exists v, dict_get d k = Some v.
Proof.
  unfold dict_contains. destruct (dict_get d k) as [v |]; [eauto | discriminate].
Qed.

(** The state after a call: the globals as they were, and at most the one
    request for the resolved display name added to the outbound calls. *)
Lemma get_weather_world (city : pystr) (w : world) :
  snd (get_weather ucd p city w) = w \/
  exists name, dict_get (CITIES w) (lower ucd city) = Some name
               /\ snd (get_weather ucd p city w) = record_call w (weather_request w name).
Proof.
  destruct (dict_contains (CITIES w) (lower ucd city)) eqn:H.
  - destruct (falsy (API_KEY w)) eqn:K.
    + left. now rewrite get_weather_unconfigured.
    + right. destruct (dict_contains_get _ _ H) as [name Hn].
      exists name. split; [assumption |].
      rewrite (get_weather_lookup _ _ _ Hn K). cbv zeta.
      destruct (reshaped ucd name (p (weather_request w name))); simpl.
      * apply get_weather_except_world.
      * reflexivity.
  - left. now rewrite get_weather_invalid.
Qed.

(** The answers of the [except] clauses carry a status other than 200. *)
Lemma get_weather_except_status (e : exn) (w : world) (r : response) :
  fst (get_weather_except e w) = inr r -> status r <> 200.
Proof.
  unfold get_weather_except, ret, raise.
  repeat match goal with
         | |- context [if ?b then _ else _] => destruct b
         | |- context [match ?o with Some _ => _ | None => _ end] => destruct o
         end; simpl; intros [= <-]; simpl; discriminate.
Qed.

(** A 200 answer comes from the [try] block alone: the key is supported,
    the credential is set, and the provider's answer to the one request
    went through every step. *)
Lemma get_weather_success (city : pystr) (w : world) (r : response) :
  fst (get_weather ucd p city w) = inr r ->
  status r = 200 ->
  exists name resp data result_data,
    dict_get (CITIES w) (lower ucd city) = Some name
    /\ falsy (API_KEY w) = false
    /\ p (weather_request w name) = inr resp
    /\ raise_for_status resp = inr tt
    /\ json resp = inr data
    /\ weather_data ucd name data = inr result_data
    /\ r = jsonify result_data.
Proof.
  intros Hr Hs.
  destruct (dict_contains (CITIES w) (lower ucd city)) eqn:H.
  2:{ rewrite (get_weather_invalid _ _ H) in Hr. simpl in Hr.
      injection Hr as <-. discriminate Hs. }
  destruct (falsy (API_KEY w)) eqn:K.
  { rewrite (get_weather_unconfigured _ _ H K) in Hr. simpl in Hr.
    injection Hr as <-. discriminate Hs. }
  destruct (dict_contains_get _ _ H) as [name Hn].
  rewrite (get_weather_lookup _ _ _ Hn K) in Hr. cbv zeta in Hr.
  destruct (reshaped ucd name (p (weather_request w name))) as [e | r'] eqn:R.
  { exfalso. exact (get_weather_except_status _ _ _ Hr Hs). }
  simpl in Hr. injection Hr as ->.
  unfold reshaped, rbind in R.
  destruct (p (weather_request w name)) as [e | resp] eqn:P; [discriminate |].
  destruct (raise_for_status resp) as [e | []] eqn:S; [discriminate |].
  destruct (json resp) as [e | data] eqn:J; [discriminate |].
  destruct (weather_data ucd name data) as [e | wd] eqn:W; [discriminate |].
  injection R as <-.
  exists name, resp, data, wd. repeat split; auto.
Qed.

(** What a [weather_data] literal that was built holds. *)
Lemma weather_data_ok (name : pystr) (data result_data : pyval) :
  weather_data ucd name data = inr result_data ->
  exists main temp temperature conditions first description humidity wind speed wind_speed,
    getitem data (str "main") = inr main
    /\ getitem main (str "temp") = inr temp
    /\ round1 temp = inr temperature
    /\ getitem data (str "weather") = inr (PList (first :: conditions))
    /\ getitem first (str "description") = inr (PStr description)
    /\ getitem main (str "humidity") = inr humidity
    /\ getitem data (str "wind") = inr wind
    /\ getitem wind (str "speed") = inr speed
    /\ round1 speed = inr wind_speed
    /\ result_data = PDict
         [ (str "city", PStr name);
           (str "temperature", temperature);
           (str "description", PStr (capitalize ucd description));
           (str "humidity", humidity);
           (str "wind_speed", wind_speed) ].
Proof.
  unfold weather_data, rbind. intros H.
  destruct (getitem data (str "main")) as [e | main] eqn:E1; [discriminate |].
  destruct (getitem main (str "temp")) as [e | temp] eqn:E2; [discriminate |].
  destruct (round1 temp) as [e | temperature] eqn:E3; [discriminate |].
  destruct (getitem data (str "weather")) as [e | weather] eqn:E4; [discriminate |].
  destruct (getitem0 weather) as [e | first] eqn:E5; [discriminate |].
  destruct (getitem first (str "description")) as [e | desc] eqn:E6; [discriminate |].
  destruct (capitalize_method ucd desc) as [e | description] eqn:E7; [discriminate |].
  destruct (getitem main (str "humidity")) as [e | humidity] eqn:E8; [discriminate |].
  destruct (getitem data (str "wind")) as [e | wind] eqn:E9; [discriminate |].
  destruct (getitem wind (str "speed")) as [e | speed] eqn:E10; [discriminate |].
  destruct (round1 speed) as [e | wind_speed] eqn:E11; [discriminate |].
  injection H as <-.
  (* the first condition is a dict, so [weather] is a list *)
  destruct desc as [| | | | d | |]; try discriminate E7.
  injection E7 as <-.
  destruct weather as [| | | | [| c s] | [| x l] |]; try discriminate E5.
  - injection E5 as <-. discriminate E6.
  - injection E5 as <-.
    exists main, temp, temperature, l, x, d, humidity, wind, speed, wind_speed.
    repeat split; auto.
Qed.
End Paths.

(** ** Input validation and configuration *)

(** C1. Validation of the city key comes before the configuration check: a
    key whose lower-cased form is not in the registry gets InvalidCity with
    status 400, whatever the credential and the provider are, and a key of
    the registry without a configured credential gets ConfigurationError
    with status 500 and not InvalidCity. Neither answer involves an outbound
    call. *)
Theorem C1_validation_precedes_configuration
    (ucd : unicode_db) (p : provider) (city : pystr) (w : world) :
  (dict_contains (CITIES w) (lower ucd city) = false ->
     fails_with InvalidCity (fst (get_weather ucd p city w))
     /\ snd (get_weather ucd p city w) = w)
  /\ (dict_contains (CITIES w) (lower ucd city) = true ->
      falsy (API_KEY w) = true ->
        fails_with ConfigurationError (fst (get_weather ucd p city w))
        /\ ~ fails_with InvalidCity (fst (get_weather ucd p city w))
        /\ snd (get_weather ucd p city w) = w).
Proof.
  split.
  - intros H. rewrite (get_weather_invalid ucd p city w H). simpl.
    split; [| reflexivity].
    eexists. split; [reflexivity |]. split; reflexivity.
  - intros H K. rewrite (get_weather_unconfigured ucd p city w H K). simpl.
    repeat split.
    + eexists. split; [reflexivity |]. split; reflexivity.
    + intros (r & Hr & _ & Hs). injection Hr as <-. discriminate Hs.
Qed.

Lemma C1_witness :
  (fails_with InvalidCity
     (fst (get_weather plain_ucd (stub PNone) (str "Paris") (startup None)))
   /\ fails_with InvalidCity
        (fst (get_weather plain_ucd (stub PNone) (str "Paris")
                (startup (Some (str "secret"))))))
  /\ fails_with ConfigurationError
       (fst (get_weather plain_ucd (stub PNone) (str "Sydney") (startup None))).
Proof.
  split; [split |].
  - apply (proj1 (C1_validation_precedes_configuration
                    plain_ucd (stub PNone) (str "Paris") (startup None))).
    reflexivity.
  - apply (proj1 (C1_validation_precedes_configuration
                    plain_ucd (stub PNone) (str "Paris")
                    (startup (Some (str "secret"))))).
    reflexivity.
  - apply (proj2 (C1_validation_precedes_configuration
                    plain_ucd (stub PNone) (str "Sydney") (startup None)));
      reflexivity.
Defined.

(** ** The health operation *)

(** C7. The health operation takes no input and answers 200 with the fixed
    descriptor: the status [running], the service name and the four
    lower-case lookup keys in the order of the registry, whatever the
    credential is and whatever outbound calls were made. *)
Theorem C7_health_descriptor (key : option pystr) (calls : list request) :
  home {| API_KEY := key;
          BASE_URL := BASE_URL (startup key);
          CITIES := CITIES (startup key);
          outbound := calls |}
  = (inr {| body := PDict
              [ (str "status", PStr (str "running"));
                (str "service", PStr (str "Weather Backend API"));
                (str "available_cities",
                 PList [ PStr (str "newyork"); PStr (str "sydney");
                         PStr (str "capetown"); PStr (str "bangkok") ]) ];
            status := 200 |},
     {| API_KEY := key;
        BASE_URL := BASE_URL (startup key);
        CITIES := CITIES (startup key);
        outbound := calls |}).
Proof. reflexivity. Qed.

(** ** Frame *)

(** C9. The weather lookup never modifies the registry or the credential:
    for every key, provider and outcome, the registry, the credential and
    the base URL after the call are what they were before it, so a second
    call made after it finds the same registry and configuration. *)
Theorem C9_lookup_preserves_registry_and_credential
    (ucd : unicode_db) (p p' : provider) (city city' : pystr) (w : world) :
  let w1 := snd (get_weather ucd p city w) in
  let w2 := snd (get_weather ucd p' city' w1) in
  (CITIES w1 = CITIES w /\ API_KEY w1 = API_KEY w /\ BASE_URL w1 = BASE_URL w)
  /\ (CITIES w2 = CITIES w /\ API_KEY w2 = API_KEY w /\ BASE_URL w2 = BASE_URL w).
Proof.
  assert (frame : forall q c v,
            let v' := snd (get_weather ucd q c v) in
            CITIES v' = CITIES v /\ API_KEY v' = API_KEY v /\ BASE_URL v' = BASE_URL v).
  { intros q c v.
    destruct (get_weather_world ucd q c v) as [E | (name & _ & E)];
      cbv zeta; rewrite E; repeat split. }
  intros w1 w2. pose proof (frame p city w) as (A1 & A2 & A3).
  pose proof (frame p' city' w1) as (B1 & B2 & B3).
  fold w1 in A1, A2, A3. fold w2 in B1, B2, B3.
  repeat split; congruence.
Qed.

(** ** Failures of the outbound call *)

Lemma fails_with_intro (k : error_kind) (message : pystr) (w : world) :
  fails_with k
    (fst (ret (with_status (jsonify (error_body (error_label k) message))
                 (error_status k)) w)).
Proof.
  eexists. split; [reflexivity |]. split; [| reflexivity].
  destruct k; reflexivity.
Qed.




(** A connection attempt that times out is a [ConnectTimeout], which is both
    a [ConnectionError] and a [Timeout]: the first [except] clause takes it. *)
Example connect_timeout_is_timeout :
  fails_with UpstreamTimeout
    (fst (get_weather plain_ucd (fun _ => throw requests_ConnectTimeout)
            (str "sydney") (startup (Some (str "secret"))))).
Proof. apply (fails_with_intro UpstreamTimeout). Qed.

(** ** Successful lookups *)

Lemma casing_variant_refl (k : pystr) : casing_variant k k.
Proof. induction k; constructor; auto. Qed.

(** For a weather report built by the handler, the entries of the body. *)
Lemma success_body (ucd : unicode_db) (p : provider) (city : pystr)
    (w : world) (r : response) :
  fst (get_weather ucd p city w) = inr r ->
  status r = 200 ->
  exists name resp data first conditions description temperature humidity wind_speed,
    dict_get (CITIES w) (lower ucd city) = Some name
    /\ p (weather_request w name) = inr resp
    /\ json resp = inr data
    /\ getitem data (str "weather") = inr (PList (first :: conditions))
    /\ getitem first (str "description") = inr (PStr description)
    /\ body r = PDict
         [ (str "city", PStr name);
           (str "temperature", temperature);
           (str "description", PStr (capitalize ucd description));
           (str "humidity", humidity);
           (str "wind_speed", wind_speed) ].
Proof.
  intros Hr Hs.
  destruct (get_weather_success ucd p city w r Hr Hs)
    as (name & resp & data & wd & Hn & _ & Hp & _ & Hj & Hw & ->).
  destruct (weather_data_ok ucd name data wd Hw)
    as (main & temp & temperature & conditions & first & description & humidity
        & wind & speed & wind_speed & _ & _ & _ & Hc & Hd & _ & _ & _ & _ & ->).
  exists name, resp, data, first, conditions, description, temperature,
    humidity, wind_speed.
  repeat split; assumption.
Qed.

(** C6. Every casing variant of a supported key resolves as the key itself
    does: the handler gives the same outcome for the variant and for the
    key and, once a credential is configured, asks the provider for the
    display name of the key (newyork: New York, sydney: Sydney, capetown:
    Cape Town, bangkok: Bangkok) and reports that name on success. *)
Theorem C6_case_insensitive_resolution
    (ucd : unicode_db) (p : provider) (key : option pystr)
    (k name city : pystr) :
  In (k, name) [ (str "newyork", str "New York");
                 (str "sydney", str "Sydney");
                 (str "capetown", str "Cape Town");
                 (str "bangkok", str "Bangkok") ] ->
  casing_variant k city ->
  let w := startup key in
  lower ucd city = k
  /\ dict_get (CITIES w) (lower ucd city) = Some name
  /\ get_weather ucd p city w = get_weather ucd p k w
  /\ (falsy key = false ->
      outbound (snd (get_weather ucd p city w)) = [weather_request w name]
      /\ forall r, fst (get_weather ucd p city w) = inr r ->
                   status r = 200 ->
                   field r "city" = Some (PStr name)).
Proof.
  intros Hin Hv w.
  assert (Hk : Forall (fun a => is_ascii a = true /\ ascii_lower a = a) k
               /\ dict_get (CITIES w) k = Some name).
  { simpl in Hin.
    destruct Hin as [E | [E | [E | [E | []]]]]; injection E as <- <-;
      (split; [repeat constructor | reflexivity]). }
  destruct Hk as [Hk Hget].
  pose proof (casing_variant_lower ucd k city Hk Hv) as Hl.
  pose proof (casing_variant_lower ucd k k Hk (casing_variant_refl k)) as Hl'.
  assert (Hget' : dict_get (CITIES w) (lower ucd city) = Some name)
    by now rewrite Hl.
  assert (Hc : forall c, lower ucd c = k ->
                 dict_contains (CITIES w) (lower ucd c) = true).
  { intros c E. unfold dict_contains. now rewrite E, Hget. }
  split; [assumption |]. split; [assumption |]. split.
  - destruct (falsy key) eqn:K.
    + rewrite (get_weather_unconfigured ucd p city w (Hc city Hl) K).
      now rewrite (get_weather_unconfigured ucd p k w (Hc k Hl') K).
    + rewrite (get_weather_lookup ucd p city name w Hget' K).
      rewrite (get_weather_lookup ucd p k name w); [reflexivity | | exact K].
      now rewrite Hl'.
  - intros K. split.
    + rewrite (get_weather_lookup ucd p city name w Hget' K). cbv zeta.
      destruct (reshaped ucd name (p (weather_request w name))).
      * now rewrite get_weather_except_world.
      * reflexivity.
    + intros r Hr Hs.
      destruct (success_body ucd p city w r Hr Hs)
        as (name' & resp & data & first & conditions & description & temperature
            & humidity & wind_speed & Hn & _ & _ & _ & _ & Hb).
      rewrite Hget' in Hn. injection Hn as <-.
      unfold field. now rewrite Hb.
Qed.

Lemma C6_witness :
  let w := startup (Some (str "secret")) in
  lower plain_ucd (str "NewYork") = str "newyork"
  /\ lower plain_ucd (str "NEWYORK") = str "newyork"
  /\ dict_get (CITIES w) (lower plain_ucd (str "NEWYORK")) = Some (str "New York")
  /\ get_weather plain_ucd (stub PNone) (str "NewYork") w
     = get_weather plain_ucd (stub PNone) (str "newyork") w.
Proof.
  intros w.
  assert (V1 : casing_variant (str "newyork") (str "NewYork"))
    by (repeat constructor; (now left) || (now right)).
  assert (V2 : casing_variant (str "newyork") (str "NEWYORK"))
    by (repeat constructor; now right).
  destruct (C6_case_insensitive_resolution plain_ucd (stub PNone)
              (Some (str "secret")) (str "newyork") (str "New York")
              (str "NewYork") (or_introl eq_refl) V1) as (A & _ & B & _).
  destruct (C6_case_insensitive_resolution plain_ucd (stub PNone)
              (Some (str "secret")) (str "newyork") (str "New York")
              (str "NEWYORK") (or_introl eq_refl) V2) as (C & D & _).
  repeat split; assumption.
Defined.

(** C8. The [city] of every weather result is the display name the registry
    gives for the lower-cased key of the request, whatever the answer of
    the provider holds. *)
Theorem C8_city_is_registry_display_name
    (ucd : unicode_db) (p : provider) (city : pystr) (w : world) (r : response) :
  fst (get_weather ucd p city w) = inr r ->
  status r = 200 ->
  exists name,
    dict_get (CITIES w) (lower ucd city) = Some name
    /\ field r "city" = Some (PStr name).
Proof.
  intros Hr Hs.
  destruct (success_body ucd p city w r Hr Hs)
    as (name & resp & data & first & conditions & description & temperature
        & humidity & wind_speed & Hn & _ & _ & _ & _ & Hb).
  exists name. split; [assumption |]. unfold field. now rewrite Hb.
Qed.

(** C10. The body of every successful lookup is an object with the five
    keys [city], [temperature], [description], [humidity] and [wind_speed],
    in that order, and no other; it has no [windSpeed] entry. *)
Theorem C10_success_body_keys
    (ucd : unicode_db) (p : provider) (city : pystr) (w : world) (r : response) :
  fst (get_weather ucd p city w) = inr r ->
  status r = 200 ->
  exists d,
    body r = PDict d
    /\ dict_keys d = [ str "city"; str "temperature"; str "description";
                       str "humidity"; str "wind_speed" ]
    /\ field r "wind_speed" <> None
    /\ field r "windSpeed" = None.
Proof.
  intros Hr Hs.
  destruct (success_body ucd p city w r Hr Hs)
    as (name & resp & data & first & conditions & description & temperature
        & humidity & wind_speed & _ & _ & _ & _ & _ & Hb).
  eexists. split; [exact Hb |]. unfold field. rewrite Hb.
  split; [reflexivity |]. split; [discriminate | reflexivity].
Qed.

Lemma C8_witness :
  exists name,
    dict_get (CITIES (startup (Some (str "secret"))))
      (lower plain_ucd (str "SYDNEY")) = Some name
    /\ field (jsonify (sydney_result "wind_speed")) "city" = Some (PStr name).
Proof.
  apply (C8_city_is_registry_display_name plain_ucd
           (stub (echoing "Sydney Harbour" sydney_report)) (str "SYDNEY")
           (startup (Some (str "secret"))) (jsonify (sydney_result "wind_speed")));
    reflexivity.
Defined.

Lemma C10_witness :
  exists d,
    body (jsonify (sydney_result "wind_speed")) = PDict d
    /\ dict_keys d = [ str "city"; str "temperature"; str "description";
                       str "humidity"; str "wind_speed" ]
    /\ field (jsonify (sydney_result "wind_speed")) "wind_speed" <> None
    /\ field (jsonify (sydney_result "wind_speed")) "windSpeed" = None.
Proof.
  apply (C10_success_body_keys plain_ucd (stub sydney_report) (str "sydney")
           (startup (Some (str "secret"))) (jsonify (sydney_result "wind_speed")));
    reflexivity.
Defined.

(** C3, as worded, fails: for the description [light RAIN] the handler
    answers [Light rain], not [Light RAIN]. *)
Lemma C3_counterexample :
  exists r,
    fst (get_weather plain_ucd
           (stub (report (PInt 15) (PInt 72) [condition "light RAIN"] (PInt 3)))
           (str "sydney") (startup (Some (str "secret")))) = inr r
    /\ status r = 200
    /\ field r "description" = Some (PStr (str "Light rain"))
    /\ field r "description"
       <> Some (PStr (capitalize_first_only (str "light RAIN"))).
Proof.
  eexists. split; [reflexivity |]. split; [reflexivity |].
  split; [reflexivity |]. vm_compute. discriminate.
Qed.

(** C3, amended. The [description] of every weather result is the
    description of the first entry of the provider's condition list put
    through [capitalize]: the first character in title case and every other
    character in lower case, which for ASCII text is the first letter in
    upper case and the other letters in lower case. *)
Theorem C3_description_capitalized_rest_lowered
    (ucd : unicode_db) (p : provider) (city : pystr) (w : world) (r : response) :
  fst (get_weather ucd p city w) = inr r ->
  status r = 200 ->
  exists name resp data first conditions d,
    dict_get (CITIES w) (lower ucd city) = Some name
    /\ p (weather_request w name) = inr resp
    /\ json resp = inr data
    /\ getitem data (str "weather") = inr (PList (first :: conditions))
    /\ getitem first (str "description") = inr (PStr d)
    /\ field r "description" = Some (PStr (capitalize ucd d))
    /\ (forall c s, d = c :: s ->
          Forall (fun x => is_ascii x = true) d ->
          capitalize ucd d = ascii_upper c :: List.map ascii_lower s).
Proof.
  intros Hr Hs.
  destruct (success_body ucd p city w r Hr Hs)
    as (name & resp & data & first & conditions & d & temperature
        & humidity & wind_speed & Hn & Hp & Hj & Hc & Hd & Hb).
  exists name, resp, data, first, conditions, d.
  repeat split; try assumption.
  - unfold field. now rewrite Hb.
  - intros c s -> Ha. now apply capitalize_ascii.
Qed.

Lemma C3_witness :
  exists name resp data first conditions d,
    dict_get (CITIES (startup (Some (str "secret"))))
      (lower plain_ucd (str "sydney")) = Some name
    /\ stub (report (PInt 15) (PInt 72) [condition "light RAIN"] (PInt 3))
         (weather_request (startup (Some (str "secret"))) name) = inr resp
    /\ json resp = inr data
    /\ getitem data (str "weather") = inr (PList (first :: conditions))
    /\ getitem first (str "description") = inr (PStr d)
    /\ field (jsonify (PDict [ (str "city", PStr (str "Sydney"));
                               (str "temperature", PInt 15);
                               (str "description", PStr (str "Light rain"));
                               (str "humidity", PInt 72);
                               (str "wind_speed", PInt 3) ])) "description"
       = Some (PStr (capitalize plain_ucd d))
    /\ (forall c s, d = c :: s ->
          Forall (fun x => is_ascii x = true) d ->
          capitalize plain_ucd d = ascii_upper c :: List.map ascii_lower s).
Proof.
  apply (C3_description_capitalized_rest_lowered plain_ucd
           (stub (report (PInt 15) (PInt 72) [condition "light RAIN"] (PInt 3)))
           (str "sydney") (startup (Some (str "secret")))); reflexivity.
Defined.

(** C2, as worded, fails: the wind speed entry of the body is named
    [wind_speed], so the body is not the object with a [windSpeed] entry. *)
Lemma C2_counterexample :
  fst (get_weather plain_ucd (stub sydney_report) (str "sydney")
         (startup (Some (str "secret"))))
  <> inr {| body := sydney_result "windSpeed"; status := 200 |}.
Proof. vm_compute. discriminate. Qed.

(** C2, amended. For a key that lowers to [sydney], a configured credential
    and a provider that answers the request for Sydney with status 200 and
    the stubbed report, the lookup answers 200 with exactly
    [{city: Sydney, temperature: 15.0, description: Light rain,
      humidity: 72, wind_speed: 3.3}]. *)
Theorem C2_sydney_stub_result
    (ucd : unicode_db) (p : provider) (key : option pystr) (city : pystr) :
  lower ucd city = str "sydney" ->
  falsy key = false ->
  p (weather_request (startup key) (str "Sydney"))
    = inr {| status_code := 200; json := inr sydney_report |} ->
  fst (get_weather ucd p city (startup key))
  = inr {| body := sydney_result "wind_speed"; status := 200 |}.
Proof.
  intros Hl K Hp.
  rewrite (get_weather_lookup ucd p city (str "Sydney") (startup key)).
  - cbv zeta. rewrite Hp. reflexivity.
  - rewrite Hl. reflexivity.
  - exact K.
Qed.

Lemma C2_witness :
  fst (get_weather plain_ucd (stub sydney_report) (str "Sydney")
         (startup (Some (str "secret"))))
  = inr {| body := sydney_result "wind_speed"; status := 200 |}.
Proof.
  apply (C2_sydney_stub_result plain_ucd (stub sydney_report)
           (Some (str "secret")) (str "Sydney")); reflexivity.
Defined.

(** The floats of the Sydney example: the temperature 15.04 rounds to the
    double 15.0 and the wind speed 3.26 to the double nearest to 3.3. *)
Example sydney_rounding :
  float_round1 (decimal 1504 2) = S754_finite false 8444249301319680 (-49)
  /\ decimal 150 1 = S754_finite false 8444249301319680 (-49)
  /\ float_round1 (decimal 326 2) = S754_finite false 7430939385161318 (-51)
  /\ decimal 33 1 = S754_finite false 7430939385161318 (-51).
Proof. repeat split; vm_compute; reflexivity. Qed.

(** ** Malformed answers *)

(** C4. An answer whose condition list is empty is not mapped to DataError:
    [data['weather'][0]] raises [IndexError], which no [except] clause
    matches, so the exception leaves the handler. *)
Theorem C4_empty_condition_list_unhandled :
  let out :=
    fst (get_weather plain_ucd
           (stub (report (PFloat (decimal 1504 2)) (PInt 72) []
                    (PFloat (decimal 326 2))))
           (str "sydney") (startup (Some (str "secret")))) in
  out = inl (exn_of IndexError) /\ ~ fails_with DataError out.
Proof.
  split; [reflexivity |].
  intros (r & Hr & _). discriminate Hr.
Qed.

(** The fields the handler reads and finds missing do give DataError: the
    lookup in a [dict] raises [KeyError], which the last clause takes. *)
Lemma missing_key_is_data_error
    (ucd : unicode_db) (p : provider) (city name : pystr) (w : world)
    (resp : http_response) (data : pyval) :
  dict_get (CITIES w) (lower ucd city) = Some name ->
  falsy (API_KEY w) = false ->
  p (weather_request w name) = inr resp ->
  raise_for_status resp = inr tt ->
  json resp = inr data ->
  weather_data ucd name data = inl (exn_of KeyError) ->
  fails_with DataError (fst (get_weather ucd p city w)).
Proof.
  intros H K Hp Hs Hj Hw.
  rewrite (get_weather_lookup ucd p city name w H K). cbv zeta.
  unfold reshaped, rbind. rewrite Hp, Hs, Hj, Hw.
  apply (fails_with_intro DataError).
Qed.

(** An answer without [wind.speed] gives DataError with status 502. *)
Example missing_wind_speed_is_data_error :
  fails_with DataError
    (fst (get_weather plain_ucd
            (stub (PDict [ (str "main", PDict [ (str "temp", PFloat (decimal 1504 2));
                                                (str "humidity", PInt 72) ]);
                           (str "weather", PList [condition "light rain"]);
                           (str "wind", PDict []) ]))
            (str "sydney") (startup (Some (str "secret"))))).
Proof. apply (fails_with_intro DataError). Qed.

(** Other malformed answers leave the handler as well: a field of the wrong
    type raises [TypeError] or [AttributeError]. *)
Example wrong_type_unhandled :
  fst (get_weather plain_ucd
         (stub (report (PStr (str "15.04")) (PInt 72) [condition "light rain"]
                  (PFloat (decimal 326 2))))
         (str "sydney") (startup (Some (str "secret"))))
  = inl (exn_of TypeError)
  /\ fst (get_weather plain_ucd
            (stub (report (PFloat (decimal 1504 2)) (PInt 72)
                     [PDict [ (str "description", PNone) ]]
                     (PFloat (decimal 326 2))))
            (str "sydney") (startup (Some (str "secret"))))
     = inl (exn_of AttributeError).
Proof. split; reflexivity. Qed.

(** A body that is not JSON: [response.json()] of [requests] 2.27 and later
    raises its own [JSONDecodeError], a [RequestException], which the
    Network Error clause takes first; the [ValueError] of older versions
    reaches the Data Error clause. *)
Example undecodable_body :
  let w := startup (Some (str "secret")) in
  fails_with NetworkError
    (fst (get_weather plain_ucd
            (fun _ => ok {| status_code := 200; json := throw requests_JSONDecodeError |})
            (str "sydney") w))
  /\ fails_with DataError
       (fst (get_weather plain_ucd
               (fun _ => ok {| status_code := 200; json := throw json_JSONDecodeError |})
               (str "sydney") w)).
Proof.
  split; [apply (fails_with_intro NetworkError) | apply (fails_with_intro DataError)].
Qed.

(** ** Dictionaries *)

Lemma str_eqb_eq (a b : pystr) : str_eqb a b = true <-> a = b.
Proof.
  revert b. induction a as [| x a IH]; intros [| y b]; simpl;
    try (split; [discriminate | discriminate]); try tauto.
  rewrite andb_true_iff, N.eqb_eq, IH. split.
  - intros [-> ->]. reflexivity.
  - intros [= -> ->]. auto.
Qed.

Lemma str_eqb_refl (a : pystr) : str_eqb a a = true.
Proof. now apply str_eqb_eq. Qed.

Lemma dict_contains_keys {V} (d : dict V) (k : pystr) :
  dict_contains d k = true <-> In k (dict_keys d).
Proof.
  unfold dict_contains. induction d as [| [k' v] d IH]; simpl.
  - split; [discriminate | tauto].
  - destruct (str_eqb k' k) eqn:E.
    + apply str_eqb_eq in E. split; auto.
    + rewrite IH. split; [auto |]. intros [-> | H]; [| assumption].
      rewrite str_eqb_refl in E. discriminate.
Qed.

Lemma dict_get_set {V} (d : dict V) (k name : pystr) (v : V) :
  dict_get (dict_set d k v) name
  = if str_eqb k name then Some v else dict_get d name.
Proof.
  induction d as [| [k' v'] d IH]; simpl.
  - reflexivity.
  - destruct (str_eqb k' k) eqn:E; simpl.
    + apply str_eqb_eq in E. subst k'.
      destruct (str_eqb k name); reflexivity.
    + rewrite IH. destruct (str_eqb k' name) eqn:E'; [| reflexivity].
      apply str_eqb_eq in E'. subst k'.
      destruct (str_eqb k name) eqn:E''; [| reflexivity].
      apply str_eqb_eq in E''. subst k. rewrite str_eqb_refl in E. discriminate.
Qed.

(** ** Outbound calls *)

(** X1. A lookup makes at most one outbound call and never retries: the
    calls recorded before it are kept and either nothing is added, or the
    key is supported, the credential is set and the one request added goes
    to [BASE_URL] with the display name as [q], the credential as [appid],
    metric units and a timeout of 10. *)
Theorem lookup_sends_at_most_one_request
    (ucd : unicode_db) (p : provider) (city : pystr) (w : world) :
  let w' := snd (get_weather ucd p city w) in
  (outbound w' = outbound w
   /\ (dict_contains (CITIES w) (lower ucd city) = false \/ falsy (API_KEY w) = true))
  \/ exists name,
       dict_get (CITIES w) (lower ucd city) = Some name
       /\ falsy (API_KEY w) = false
       /\ outbound w' = outbound w ++
            [ {| req_url := BASE_URL w;
                 req_params := [ (str "q", PStr name);
                                 (str "appid", pyval_of_key (API_KEY w));
                                 (str "units", PStr (str "metric")) ];
                 req_timeout := 10 |} ].
Proof.
  intros w'. subst w'.
  destruct (dict_contains (CITIES w) (lower ucd city)) eqn:H.
  - destruct (falsy (API_KEY w)) eqn:K.
    + left. rewrite (get_weather_unconfigured ucd p city w H K). auto.
    + right. destruct (dict_contains_get _ _ H) as [name Hn].
      exists name. split; [assumption |]. split; [reflexivity |].
      rewrite (get_weather_lookup ucd p city name w Hn K). cbv zeta.
      destruct (reshaped ucd name (p (weather_request w name))).
      * now rewrite get_weather_except_world.
      * reflexivity.
  - left. rewrite (get_weather_invalid ucd p city w H). auto.
Qed.

(** ** The answers of the lookup *)

Lemma get_weather_except_kind (e : exn) (w : world) (r : response) :
  fst (get_weather_except e w) = inr r ->
  exists k message,
    (k = UpstreamTimeout \/ k = UpstreamHTTPError \/ k = NetworkError \/ k = DataError)
    /\ r = {| body := error_body (error_label k) message; status := error_status k |}.
Proof.
  unfold get_weather_except, ret, raise.
  destruct (isinstance e requests_Timeout).
  { intros [= <-]. exists UpstreamTimeout. eexists. split; [auto | reflexivity]. }
  destruct (isinstance e requests_HTTPError).
  { destruct (exn_status e); [| discriminate].
    intros [= <-]. exists UpstreamHTTPError. eexists.
    split; [auto | reflexivity]. }
  destruct (isinstance e requests_RequestException).
  { intros [= <-]. exists NetworkError. eexists. split; [auto | reflexivity]. }
  destruct (isinstance e KeyError || isinstance e ValueError); [| discriminate].
  intros [= <-]. exists DataError. eexists. split; [auto 6 | reflexivity].
Qed.

(** X2. Every answer of the lookup is either a 200 or one of the six
    structured errors: a body with exactly the entries [error] and
    [message], both [str], where [error] is the label of the kind and the
    status is the one of the kind (400, 500, 504 or 502). *)
Theorem lookup_answer_is_200_or_structured_error
    (ucd : unicode_db) (p : provider) (city : pystr) (w : world) (r : response) :
  fst (get_weather ucd p city w) = inr r ->
  status r = 200
  \/ exists k message,
       r = {| body := PDict [ (str "error", PStr (error_label k));
                              (str "message", PStr message) ];
              status := error_status k |}.
Proof.
  intros Hr.
  destruct (dict_contains (CITIES w) (lower ucd city)) eqn:H.
  2:{ rewrite (get_weather_invalid ucd p city w H) in Hr. injection Hr as <-.
      right. exists InvalidCity. eexists. reflexivity. }
  destruct (falsy (API_KEY w)) eqn:K.
  { rewrite (get_weather_unconfigured ucd p city w H K) in Hr. injection Hr as <-.
    right. exists ConfigurationError. eexists. reflexivity. }
  destruct (dict_contains_get _ _ H) as [name Hn].
  rewrite (get_weather_lookup ucd p city name w Hn K) in Hr. cbv zeta in Hr.
  destruct (reshaped ucd name (p (weather_request w name))) as [e | r'] eqn:R.
  - right. destruct (get_weather_except_kind _ _ _ Hr) as (k & message & _ & ->).
    exists k, message. reflexivity.
  - left. simpl in Hr. injection Hr as <-.
    unfold reshaped, rbind in R.
    destruct (p (weather_request w name)) as [e | resp]; [discriminate |].
    destruct (raise_for_status resp); [discriminate |].
    destruct (json resp) as [e | data]; [discriminate |].
    destruct (weather_data ucd name data); [discriminate |].
    injection R as <-. reflexivity.
Qed.

Lemma lookup_answer_is_200_or_structured_error_witness :
  status (with_status (jsonify (error_body (str "Timeout")
            (str "Request to OpenWeatherMap API timed out"))) 504) = 200
  \/ exists k message,
       with_status (jsonify (error_body (str "Timeout")
         (str "Request to OpenWeatherMap API timed out"))) 504
       = {| body := PDict [ (str "error", PStr (error_label k));
                            (str "message", PStr message) ];
            status := error_status k |}.
Proof.
  apply (lookup_answer_is_200_or_structured_error plain_ucd
           (fun _ => throw requests_ReadTimeout) (str "bangkok")
           (startup (Some (str "secret")))).
  reflexivity.
Defined.

(** X3. No exception of [requests], no [KeyError] and no [ValueError] ever
    leaves the lookup: an exception that does is an instance of none of the
    classes the [except] clauses name. *)
Theorem lookup_escaping_exception_is_unlisted
    (ucd : unicode_db) (p : provider) (city : pystr) (w : world) (e : exn) :
  fst (get_weather ucd p city w) = inl e ->
  isinstance e requests_RequestException = false
  /\ isinstance e KeyError = false
  /\ isinstance e ValueError = false.
Proof.
  intros He.
  destruct (dict_contains (CITIES w) (lower ucd city)) eqn:H.
  2:{ rewrite (get_weather_invalid ucd p city w H) in He. discriminate He. }
  destruct (falsy (API_KEY w)) eqn:K.
  { rewrite (get_weather_unconfigured ucd p city w H K) in He. discriminate He. }
  destruct (dict_contains_get _ _ H) as [name Hn].
  rewrite (get_weather_lookup ucd p city name w Hn K) in He. cbv zeta in He.
  destruct (reshaped ucd name (p (weather_request w name))) as [e' | r'];
    [| discriminate He].
  unfold get_weather_except, ret, raise in He.
  destruct (isinstance e' requests_Timeout); [discriminate He |].
  destruct (isinstance e' requests_HTTPError).
  { destruct (exn_status e'); [discriminate He |].
    injection He as <-. repeat split; reflexivity. }
  destruct (isinstance e' requests_RequestException) eqn:R; [discriminate He |].
  destruct (isinstance e' KeyError) eqn:A; [discriminate He |].
  destruct (isinstance e' ValueError) eqn:B; [discriminate He |].
  injection He as <-. auto.
Qed.

Lemma lookup_escaping_exception_is_unlisted_witness :
  isinstance (exn_of IndexError) requests_RequestException = false
  /\ isinstance (exn_of IndexError) KeyError = false
  /\ isinstance (exn_of IndexError) ValueError = false.
Proof.
  apply (lookup_escaping_exception_is_unlisted plain_ucd
           (stub (report (PInt 15) (PInt 72) [] (PInt 3))) (str "sydney")
           (startup (Some (str "secret")))).
  reflexivity.
Defined.

(** ** The health list and the validation *)

Lemma status_400_is_invalid_city
    (ucd : unicode_db) (p : provider) (city : pystr) (w : world) (r : response) :
  fst (get_weather ucd p city w) = inr r ->
  status r = 400 ->
  dict_contains (CITIES w) (lower ucd city) = false.
Proof.
  intros Hr Hs.
  destruct (dict_contains (CITIES w) (lower ucd city)) eqn:H; [| reflexivity].
  exfalso.
  destruct (falsy (API_KEY w)) eqn:K.
  { rewrite (get_weather_unconfigured ucd p city w H K) in Hr. injection Hr as <-.
    discriminate Hs. }
  destruct (dict_contains_get _ _ H) as [name Hn].
  rewrite (get_weather_lookup ucd p city name w Hn K) in Hr. cbv zeta in Hr.
  destruct (reshaped ucd name (p (weather_request w name))) as [e | r'] eqn:R.
  - destruct (get_weather_except_kind _ _ _ Hr) as (k & message & Hk & ->).
    destruct Hk as [-> | [-> | [-> | ->]]]; discriminate Hs.
  - simpl in Hr. injection Hr as <-.
    unfold reshaped, rbind in R.
    destruct (p (weather_request w name)) as [e | resp]; [discriminate |].
    destruct (raise_for_status resp); [discriminate |].
    destruct (json resp) as [e | data]; [discriminate |].
    destruct (weather_data ucd name data); [discriminate |].
    injection R as <-. discriminate Hs.
Qed.

(** X4. The health operation and the validation agree, whatever the
    registry holds: the keys [home] lists under [available_cities] are
    exactly the lower-cased keys the lookup does not reject, that is, the
    lookup answers InvalidCity if and only if the lower-cased key is not in
    that list. *)
Theorem health_list_is_what_lookup_accepts (w : world) :
  exists r keys,
    fst (home w) = inr r
    /\ field r "available_cities" = Some (PList (List.map PStr keys))
    /\ forall (ucd : unicode_db) (p : provider) (city : pystr),
         fails_with InvalidCity (fst (get_weather ucd p city w))
         <-> ~ In (lower ucd city) keys.
Proof.
  eexists. exists (dict_keys (CITIES w)).
  split; [reflexivity |]. split; [reflexivity |].
  intros ucd p city. rewrite <- dict_contains_keys. split.
  - intros (r & Hr & _ & Hs) Hc.
    rewrite (status_400_is_invalid_city ucd p city w r Hr Hs) in Hc.
    discriminate Hc.
  - intros Hc.
    destruct (dict_contains (CITIES w) (lower ucd city)) eqn:H; [tauto |].
    rewrite (get_weather_invalid ucd p city w H).
    apply (fails_with_intro InvalidCity).
Qed.

(** ** Messages *)

(** X5. The InvalidCity message names the key as it was given, not its
    lower-cased form, and lists the four keys of the registry as Python
    prints a list of [str]. *)
Theorem invalid_city_message
    (ucd : unicode_db) (p : provider) (key : option pystr) (city : pystr) :
  dict_contains (CITIES (startup key)) (lower ucd city) = false ->
  fst (get_weather ucd p city (startup key))
  = inr {| body := PDict
             [ (str "error", PStr (str "Invalid city"));
               (str "message",
                PStr (str "City " ++ dquote ++ city ++ dquote
                      ++ str " not supported. Available cities: ['newyork', 'sydney', 'capetown', 'bangkok']")) ];
           status := 400 |}.
Proof.
  intros H. rewrite (get_weather_invalid ucd p city (startup key) H).
  reflexivity.
Qed.

Lemma invalid_city_message_witness :
  fst (get_weather plain_ucd (stub PNone) (str "Paris") (startup None))
  = inr {| body := PDict
             [ (str "error", PStr (str "Invalid city"));
               (str "message",
                PStr (str "City " ++ dquote ++ str "Paris" ++ dquote
                      ++ str " not supported. Available cities: ['newyork', 'sydney', 'capetown', 'bangkok']")) ];
           status := 400 |}.
Proof.
  apply (invalid_city_message plain_ucd (stub PNone) None (str "Paris")).
  reflexivity.
Defined.

Lemma str_of_int_three_digits (code : Z) :
  400 <= code < 600 -> str_of_int code = three_digits code.
Proof.
  intros H.
  assert (A : forallb (fun n => str_eqb (str_of_int (Z.of_nat n))
                                  (three_digits (Z.of_nat n)))
                (seq 400 200) = true) by (vm_compute; reflexivity).
  rewrite forallb_forall in A.
  specialize (A (Z.to_nat code)).
  rewrite Z2Nat.id in A by lia.
  apply str_eqb_eq, A, in_seq. lia.
Qed.

(** X6. The UpstreamHTTPError message ends with the status code of the
    provider in decimal, for every error status the provider can answer
    with. *)
Theorem http_error_message_carries_status
    (ucd : unicode_db) (p : provider) (city name : pystr) (w : world)
    (resp : http_response) :
  dict_get (CITIES w) (lower ucd city) = Some name ->
  falsy (API_KEY w) = false ->
  p (weather_request w name) = inr resp ->
  400 <= status_code resp < 600 ->
  fst (get_weather ucd p city w)
  = inr {| body := PDict
             [ (str "error", PStr (str "API Error"));
               (str "message",
                PStr (str "OpenWeatherMap API returned an error: "
                      ++ three_digits (status_code resp))) ];
           status := 502 |}.
Proof.
  intros H K Hp Hs.
  rewrite (get_weather_lookup ucd p city name w H K). cbv zeta.
  rewrite Hp. unfold reshaped, rbind, raise_for_status.
  replace ((400 <=? status_code resp) && (status_code resp <? 600)) with true
    by (symmetry; apply andb_true_intro; split;
        [apply Z.leb_le | apply Z.ltb_lt]; lia).
  rewrite <- (str_of_int_three_digits _ Hs). reflexivity.
Qed.

Lemma http_error_message_carries_status_witness :
  fst (get_weather plain_ucd
         (fun _ => ok {| status_code := 404; json := throw ValueError |})
         (str "CapeTown") (startup (Some (str "secret"))))
  = inr {| body := PDict
             [ (str "error", PStr (str "API Error"));
               (str "message",
                PStr (str "OpenWeatherMap API returned an error: "
                      ++ three_digits 404)) ];
           status := 502 |}.
Proof.
  apply (http_error_message_carries_status plain_ucd
           (fun _ => ok {| status_code := 404; json := throw ValueError |})
           (str "CapeTown") (str "Cape Town") (startup (Some (str "secret")))
           {| status_code := 404; json := throw ValueError |});
    [reflexivity | reflexivity | reflexivity | simpl; lia].
Defined.

(** ** Well-formed answers *)

(** X7. For a supported key and a configured credential, an answer whose
    status is not an error status (it need not be 200) and whose JSON
    object has [main.temp] and [wind.speed] a number, [main.humidity]
    present and a [str] description in the first entry of [weather] gives
    200 with the five entries; whatever else the answer holds, the other
    conditions included, is ignored. *)
Theorem well_formed_answer_gives_weather_result
    (ucd : unicode_db) (p : provider) (city name : pystr) (w : world)
    (resp : http_response)
    (data main temp temperature first humidity wind speed wind_speed : pyval)
    (conditions : list pyval) (description : pystr) :
  dict_get (CITIES w) (lower ucd city) = Some name ->
  falsy (API_KEY w) = false ->
  p (weather_request w name) = inr resp ->
  ~ (400 <= status_code resp < 600) ->
  json resp = inr data ->
  getitem data (str "main") = inr main ->
  getitem main (str "temp") = inr temp ->
  round1 temp = inr temperature ->
  getitem data (str "weather") = inr (PList (first :: conditions)) ->
  getitem first (str "description") = inr (PStr description) ->
  getitem main (str "humidity") = inr humidity ->
  getitem data (str "wind") = inr wind ->
  getitem wind (str "speed") = inr speed ->
  round1 speed = inr wind_speed ->
  get_weather ucd p city w
  = (inr {| body := PDict
              [ (str "city", PStr name);
                (str "temperature", temperature);
                (str "description", PStr (capitalize ucd description));
                (str "humidity", humidity);
                (str "wind_speed", wind_speed) ];
            status := 200 |},
     record_call w (weather_request w name)).
Proof.
  intros H K Hp Hs Hj M T RT W D Hu Wi Sp RS.
  rewrite (get_weather_lookup ucd p city name w H K). cbv zeta.
  rewrite Hp. unfold reshaped, rbind, raise_for_status.
  replace ((400 <=? status_code resp) && (status_code resp <? 600)) with false.
  2:{ symmetry. apply andb_false_iff.
      destruct (Z.leb_spec 400 (status_code resp)); [right | now left].
      apply Z.ltb_ge. lia. }
  unfold ok. rewrite Hj. unfold weather_data, rbind.
  rewrite M, T, RT, W. simpl getitem0. unfold ok.
  rewrite D. simpl capitalize_method. unfold ok.
  rewrite Hu, Wi, Sp, RS. reflexivity.
Qed.

Lemma well_formed_answer_gives_weather_result_witness :
  let w := startup (Some (str "secret")) in
  let p := fun _ : request =>
             ok {| status_code := 203;
                   json := ok (echoing "Krung Thep"
                                 (report (PInt 31) (PFloat (decimal 645 1))
                                    [condition "haze"; condition "MIST"]
                                    (PFloat (decimal 125 2)))) |} in
  get_weather plain_ucd p (str "Bangkok") w
  = (inr {| body := PDict
              [ (str "city", PStr (str "Bangkok"));
                (str "temperature", PInt 31);
                (str "description", PStr (capitalize plain_ucd (str "haze")));
                (str "humidity", PFloat (decimal 645 1));
                (str "wind_speed", PFloat (float_round1 (decimal 125 2))) ];
            status := 200 |},
     record_call w (weather_request w (str "Bangkok"))).
Proof.
  intros w p.
  apply (well_formed_answer_gives_weather_result plain_ucd p (str "Bangkok")
           (str "Bangkok") w
           {| status_code := 203;
              json := ok (echoing "Krung Thep"
                            (report (PInt 31) (PFloat (decimal 645 1))
                               [condition "haze"; condition "MIST"]
                               (PFloat (decimal 125 2)))) |}
           (echoing "Krung Thep"
              (report (PInt 31) (PFloat (decimal 645 1))
                 [condition "haze"; condition "MIST"] (PFloat (decimal 125 2))))
           (PDict [ (str "temp", PInt 31); (str "humidity", PFloat (decimal 645 1)) ])
           (PInt 31) (PInt 31) (condition "haze") (PFloat (decimal 645 1))
           (PDict [ (str "speed", PFloat (decimal 125 2)) ])
           (PFloat (decimal 125 2)) (PFloat (float_round1 (decimal 125 2)))
           [condition "MIST"] (str "haze"));
    try reflexivity.
  simpl. lia.
Defined.

(** X8. In every weather result the humidity is the provider's
    [main.humidity] as it came, of whatever JSON type, and the temperature
    and the wind speed are [round(.., 1)] of the provider's [main.temp] and
    [wind.speed], which are numbers; an [int] among them is reported as the
    same [int]. *)
Theorem weather_result_fields_come_from_answer
    (ucd : unicode_db) (p : provider) (city : pystr) (w : world) (r : response) :
  fst (get_weather ucd p city w) = inr r ->
  status r = 200 ->
  exists name resp data main temp wind speed temperature humidity wind_speed,
    dict_get (CITIES w) (lower ucd city) = Some name
    /\ p (weather_request w name) = inr resp
    /\ ~ (400 <= status_code resp < 600)
    /\ json resp = inr data
    /\ getitem data (str "main") = inr main
    /\ getitem main (str "temp") = inr temp
    /\ getitem main (str "humidity") = inr humidity
    /\ getitem data (str "wind") = inr wind
    /\ getitem wind (str "speed") = inr speed
    /\ round1 temp = inr temperature
    /\ round1 speed = inr wind_speed
    /\ field r "temperature" = Some temperature
    /\ field r "humidity" = Some humidity
    /\ field r "wind_speed" = Some wind_speed
    /\ (forall z, temp = PInt z -> temperature = PInt z)
    /\ (forall z, speed = PInt z -> wind_speed = PInt z).
Proof.
  intros Hr Hs.
  destruct (get_weather_success ucd p city w r Hr Hs)
    as (name & resp & data & wd & Hn & _ & Hp & Hst & Hj & Hw & ->).
  destruct (weather_data_ok ucd name data wd Hw)
    as (main & temp & temperature & conditions & first & description & humidity
        & wind & speed & wind_speed & M & T & RT & _ & _ & Hu & Wi & Sp & RS & ->).
  exists name, resp, data, main, temp, wind, speed, temperature, humidity, wind_speed.
  repeat split; try assumption; try reflexivity.
  - intros B. unfold raise_for_status in Hst.
    replace ((400 <=? status_code resp) && (status_code resp <? 600)) with true in Hst
      by (symmetry; apply andb_true_intro; split;
          [apply Z.leb_le | apply Z.ltb_lt]; lia).
    discriminate Hst.
  - intros z ->. simpl in RT. now injection RT as <-.
  - intros z ->. simpl in RS. now injection RS as <-.
Qed.

Lemma weather_result_fields_come_from_answer_witness :
  exists name resp data main temp wind speed temperature humidity wind_speed,
    dict_get (CITIES (startup (Some (str "secret"))))
      (lower plain_ucd (str "sydney")) = Some name
    /\ stub sydney_report (weather_request (startup (Some (str "secret"))) name)
         = inr resp
    /\ ~ (400 <= status_code resp < 600)
    /\ json resp = inr data
    /\ getitem data (str "main") = inr main
    /\ getitem main (str "temp") = inr temp
    /\ getitem main (str "humidity") = inr humidity
    /\ getitem data (str "wind") = inr wind
    /\ getitem wind (str "speed") = inr speed
    /\ round1 temp = inr temperature
    /\ round1 speed = inr wind_speed
    /\ field (jsonify (sydney_result "wind_speed")) "temperature" = Some temperature
    /\ field (jsonify (sydney_result "wind_speed")) "humidity" = Some humidity
    /\ field (jsonify (sydney_result "wind_speed")) "wind_speed" = Some wind_speed
    /\ (forall z, temp = PInt z -> temperature = PInt z)
    /\ (forall z, speed = PInt z -> wind_speed = PInt z).
Proof.
  apply (weather_result_fields_come_from_answer plain_ucd (stub sydney_report)
           (str "sydney") (startup (Some (str "secret")))); reflexivity.
Defined.

(** ** Casing of the key *)

(** X9. The lookup sees the key through its lower-cased form only, except
    in the InvalidCity message: two keys with the same lower-cased form get
    the same answer and cause the same outbound call when the form is in the
    registry, and otherwise both get the InvalidCity answer whose message
    names each key as it was given. *)
Theorem lookup_depends_on_lowered_key
    (ucd : unicode_db) (p : provider) (city city' : pystr) (w : world) :
  lower ucd city = lower ucd city' ->
  (dict_contains (CITIES w) (lower ucd city) = true ->
     get_weather ucd p city w = get_weather ucd p city' w)
  /\ (dict_contains (CITIES w) (lower ucd city) = false ->
      forall c, c = city \/ c = city' ->
        get_weather ucd p c w
        = (inr {| body := PDict
                    [ (str "error", PStr (str "Invalid city"));
                      (str "message",
                       PStr (str "City " ++ dquote ++ c ++ dquote
                             ++ str " not supported. Available cities: "
                             ++ str_of_list ucd (dict_keys (CITIES w)))) ];
                  status := 400 |}, w)).
Proof.
  intros E. split.
  - intros H. destruct (falsy (API_KEY w)) eqn:K.
    + rewrite (get_weather_unconfigured ucd p city w H K).
      rewrite E in H.
      now rewrite (get_weather_unconfigured ucd p city' w H K).
    + destruct (dict_contains_get _ _ H) as [name Hn].
      rewrite (get_weather_lookup ucd p city name w Hn K).
      rewrite E in Hn.
      now rewrite (get_weather_lookup ucd p city' name w Hn K).
  - intros H c [-> | ->].
    + now rewrite (get_weather_invalid ucd p city w H).
    + rewrite E in H. now rewrite (get_weather_invalid ucd p city' w H).
Qed.

Lemma lookup_depends_on_lowered_key_witness :
  get_weather plain_ucd (stub sydney_report) (str "sYdNeY")
    (startup (Some (str "secret")))
  = get_weather plain_ucd (stub sydney_report) (str "SYDNEY")
      (startup (Some (str "secret"))).
Proof.
  apply (proj1 (lookup_depends_on_lowered_key plain_ucd (stub sydney_report)
                  (str "sYdNeY") (str "SYDNEY") (startup (Some (str "secret")))
                  eq_refl)).
  reflexivity.
Defined.

(** ** Configuration at load time *)

Lemma dict_get_none_keys {V} (d : dict V) (k : pystr) :
  ~ In k (dict_keys d) -> dict_get d k = None.
Proof.
  intros H. destruct (dict_get d k) eqn:E; [| reflexivity].
  exfalso. apply H, dict_contains_keys. unfold dict_contains. now rewrite E.
Qed.

Lemma dict_set_keys {V} (d : dict V) (k x : pystr) (v : V) :
  In x (dict_keys (dict_set d k v)) <-> x = k \/ In x (dict_keys d).
Proof.
  induction d as [| [k' v'] d IH]; simpl.
  - intuition.
  - destruct (str_eqb k' k) eqn:E; simpl.
    + apply str_eqb_eq in E. subst k'. intuition.
    + rewrite IH. intuition.
Qed.

Lemma dict_set_nodup {V} (d : dict V) (k : pystr) (v : V) :
  NoDup (dict_keys d) -> NoDup (dict_keys (dict_set d k v)).
Proof.
  induction d as [| [k' v'] d IH]; simpl; intros H.
  - constructor; [intros [] | constructor].
  - inversion H as [| ? ? Hn Hd]; subst.
    destruct (str_eqb k' k) eqn:E; simpl.
    + now constructor.
    + constructor; [| now apply IH].
      rewrite dict_set_keys. intros [-> | Hi]; [| contradiction].
      rewrite str_eqb_refl in E. discriminate.
Qed.

(** The mapping made of a [.env] file has each name once, with its last
    binding. *)
Lemma dotenv_dict_spec (bindings : list (pystr * option pystr)) (name : pystr) :
  NoDup (dict_keys (dotenv_dict bindings))
  /\ dict_get (dotenv_dict bindings) name = last_binding bindings name.
Proof.
  unfold dotenv_dict.
  assert (G : forall d,
            NoDup (dict_keys d) ->
            NoDup (dict_keys
                     (fold_left (fun d kv => dict_set d (fst kv) (snd kv)) bindings d))
            /\ dict_get (fold_left (fun d kv => dict_set d (fst kv) (snd kv)) bindings d)
                 name
               = match last_binding bindings name with
                 | Some b => Some b
                 | None => dict_get d name
                 end).
  { induction bindings as [| [k v] bindings IH]; intros d Hd; simpl.
    - auto.
    - destruct (IH (dict_set d k v) (dict_set_nodup d k v Hd)) as [N G].
      split; [exact N |]. rewrite G, dict_get_set.
      destruct (last_binding bindings name); [reflexivity |].
      destruct (str_eqb k name); reflexivity. }
  destruct (G [] (NoDup_nil _)) as [N E]. split; [exact N |].
  rewrite E. now destruct (last_binding bindings name).
Qed.

(** Copying a mapping to the environment: the names the environment has are
    kept, the others get the value the mapping has for them. *)
Lemma copy_to_environ_get (d : dict (option pystr)) (env : environ) (name : pystr) :
  NoDup (dict_keys d) ->
  dict_get
    (fold_left
       (fun (e : environ) (kv : pystr * option pystr) =>
          if dict_contains e (fst kv) then e
          else match snd kv with
               | Some v => dict_set e (fst kv) v
               | None => e
               end) d env) name
  = match dict_get env name with
    | Some v => Some v
    | None => match dict_get d name with
              | Some (Some v) => Some v
              | _ => None
              end
    end.
Proof.
  intros Hd. revert env.
  induction d as [| [k v] d IH]; intros env; simpl.
  - now destruct (dict_get env name).
  - inversion Hd as [| ? ? Hn Hd']; subst.
    rewrite (IH Hd'). clear IH.
    unfold dict_contains.
    destruct (dict_get env k) as [x |] eqn:Ek.
    + (* the environment has [k]: the entry is skipped *)
      destruct (dict_get env name) as [y |] eqn:En; [reflexivity |].
      destruct (str_eqb k name) eqn:E; [| reflexivity].
      apply str_eqb_eq in E. subst k. congruence.
    + destruct (str_eqb k name) eqn:E.
      * apply str_eqb_eq in E. subst k. rewrite Ek.
        destruct v as [s |].
        -- now rewrite dict_get_set, str_eqb_refl.
        -- rewrite Ek. now rewrite (dict_get_none_keys d name Hn).
      * destruct v as [s |]; [| reflexivity].
        rewrite dict_get_set, E. reflexivity.
Qed.

Lemma load_dotenv_get (bindings : list (pystr * option pystr)) (env : environ)
    (name : pystr) :
  dict_get (load_dotenv (Some bindings) env) name
  = match dict_get env name with
    | Some v => Some v
    | None => dotenv_value bindings name
    end.
Proof.
  destruct (dotenv_dict_spec bindings name) as [N E].
  unfold load_dotenv, dotenv_value.
  rewrite (copy_to_environ_get _ env name N), E. reflexivity.
Qed.

Lemma load_module_api_key (dotenv : option (dict (option pystr))) (env : environ) :
  API_KEY (load_module dotenv env)
  = match dict_get env (str "OPENWEATHER_API_KEY") with
    | Some v => Some v
    | None => match dotenv with
              | Some entries => dotenv_value entries (str "OPENWEATHER_API_KEY")
              | None => None
              end
    end.
Proof.
  unfold load_module, os_getenv. cbn [API_KEY startup].
  destruct dotenv as [entries |].
  - apply load_dotenv_get.
  - unfold load_dotenv.
    destruct (dict_get env (str "OPENWEATHER_API_KEY")); reflexivity.
Qed.

(** X10. The credential comes from the process environment first: when
    [OPENWEATHER_API_KEY] is set there, [API_KEY] is that value whatever
    the [.env] file holds; when it is not, [API_KEY] is the value of the
    last binding of the name in the [.env] file, and [None] when there is
    no file, no binding of the name, or a last binding without a value.
    The registry and the base URL do not depend on either. *)
Theorem api_key_environment_precedes_dotenv
    (dotenv : option (dict (option pystr))) (env : environ) :
  let name := str "OPENWEATHER_API_KEY" in
  API_KEY (load_module dotenv env)
  = match dict_get env name with
    | Some v => Some v
    | None => match dotenv with
              | Some entries => dotenv_value entries name
              | None => None
              end
    end
  /\ CITIES (load_module dotenv env) = CITIES (startup None)
  /\ BASE_URL (load_module dotenv env) = BASE_URL (startup None)
  /\ outbound (load_module dotenv env) = [].
Proof.
  intros name. split; [| repeat split].
  apply load_module_api_key.
Qed.

(** X11. A service loaded without a usable credential answers every
    supported key with ConfigurationError and calls nobody: this is so when
    the variable is set to the empty string in the environment, even if the
    [.env] file has a key, and when neither the environment nor the [.env]
    file gives it a value. *)
Theorem unusable_credential_gives_configuration_error
    (ucd : unicode_db) (p : provider) (city : pystr)
    (dotenv : option (dict (option pystr))) (env : environ) :
  let name := str "OPENWEATHER_API_KEY" in
  dict_get env name = Some []
  \/ (dict_get env name = None
      /\ match dotenv with
         | Some entries => dotenv_value entries name = None
         | None => True
         end) ->
  dict_contains (CITIES (startup None)) (lower ucd city) = true ->
  get_weather ucd p city (load_module dotenv env)
  = (inr {| body := PDict
              [ (str "error", PStr (str "Configuration error"));
                (str "message", PStr (str "OpenWeatherMap API key not configured")) ];
            status := 500 |},
     load_module dotenv env).
Proof.
  intros name Hk Hc.
  pose proof (load_module_api_key dotenv env) as A.
  fold name in A.
  apply get_weather_unconfigured; [exact Hc |].
  rewrite A.
  destruct Hk as [-> | [-> Hd]]; [reflexivity |].
  destruct dotenv as [entries |]; [now rewrite Hd | reflexivity].
Qed.

Lemma unusable_credential_gives_configuration_error_witness :
  let dotenv := Some [ (str "OPENWEATHER_API_KEY", Some (str "from-file")) ] in
  let env := [ (str "HOME", str "/root"); (str "OPENWEATHER_API_KEY", []) ] in
  get_weather plain_ucd (stub sydney_report) (str "Sydney") (load_module dotenv env)
  = (inr {| body := PDict
              [ (str "error", PStr (str "Configuration error"));
                (str "message", PStr (str "OpenWeatherMap API key not configured")) ];
            status := 500 |},
     load_module dotenv env).
Proof.
  intros dotenv env.
  apply (unusable_credential_gives_configuration_error plain_ucd
           (stub sydney_report) (str "Sydney") dotenv env);
    [left; reflexivity | reflexivity].
Defined.

(** ** Order of evaluation of the weather data *)






(** ** Rounding *)

Lemma float_eqb_eq (a b : float) : float_eqb a b = true -> a = b.
Proof.
  destruct a as [s | s | | s m e], b as [s' | s' | | s' m' e']; simpl;
    try discriminate; try reflexivity.
  - intros H. apply Bool.eqb_prop in H. now subst.
  - intros H. apply Bool.eqb_prop in H. now subst.
  - rewrite !andb_true_iff. intros [[H1 H2] H3].
    apply Bool.eqb_prop in H1. apply Pos.eqb_eq in H2. apply Z.eqb_eq in H3.
    now subst.
Qed.

(** X14. A temperature or wind speed the provider gives with one decimal,
    between -99.9 and 99.9, is reported as the same float: rounding to one
    decimal changes nothing for it. *)
Theorem one_decimal_value_is_unchanged (n : Z) :
  -1000 < n < 1000 ->
  round1 (PFloat (decimal n 1)) = inr (PFloat (decimal n 1)).
Proof.
  intros H.
  assert (A : forallb (fun i => let x := decimal (Z.of_nat i - 999) 1 in
                                float_eqb (float_round1 x) x)
                (seq 0 1999) = true) by (vm_compute; reflexivity).
  rewrite forallb_forall in A.
  specialize (A (Z.to_nat (n + 999))).
  replace (Z.of_nat (Z.to_nat (n + 999)) - 999) with n in A
    by (rewrite Z2Nat.id; lia).
  unfold round1, ok. do 2 f_equal.
  apply float_eqb_eq, A, in_seq. lia.
Qed.

Lemma one_decimal_value_is_unchanged_witness :
  round1 (PFloat (decimal (-127) 1)) = inr (PFloat (decimal (-127) 1)).
Proof. apply (one_decimal_value_is_unchanged (-127)). lia. Defined.
